(** * IMDB_Movie: the filter, aggregate and ranking pipeline of Streamlit_3.py

    The script loads a movie table, resolves four filter dimensions from
    sidebar widgets, filters the table with boolean masks, and shows
    summary metrics and a top-10 ranking.

    Modelling choices.
    - A data frame is the ordered list of its rows; a column is the list of
      the rows' cells; a boolean mask is a list of booleans of the same
      length, and [frame[mask]] keeps the rows whose mask cell is true.
    - A float64 cell is either a finite number, modelled by the rational it
      denotes, or NaN (an empty CSV cell).  Order comparisons on finite
      doubles agree with those on the rationals; every comparison that
      involves NaN is false, and [!=] with NaN is true.  Cells that are
      infinite or a negative zero are left out.
    - The Votes column is int64, modelled by Z.
    - [Series.mean()] works in float64, with the library's order of
      summation and its rounding.  It is not modelled: the two means the
      script takes are an interface ([Reductions]) and the development holds
      for every implementation of it.  What a mean returns can be any
      float64 value, infinities and the negative zero included.
    - [format(x, '.df')] prints the decimal numeral with [d] fraction digits
      that is nearest to the exact value of the double, ties to even.
    - [st.slider] with a pair as value returns the pair in order: a pair
      whose first end is above the second comes back swapped.
    - pandas objects live in a store indexed by object identity, so that
      what [copy] and boolean indexing write can be told apart from what
      they read. *)

From Stdlib Require Import ZArith NArith QArith Qround Qabs Lqa Lia Ascii Sorting.Sorted.
From stdpp Require Import base option list sorting strings gmap.

Local Open Scope Z_scope.
Local Open Scope string_scope.
Local Open Scope list_scope.

(** ** pandas: the operations the script calls *)

Module Pandas.

(** float64 cells *)
Inductive float : Type :=
| Fin (q : Q)
| NaN.

(** [a >= b] on floats *)
Definition float_ge (a b : float) : bool :=
  match a, b with
  | Fin x, Fin y => Qle_bool y x
  | _, _ => false
  end.

(** [a <= b] on floats *)
Definition float_le (a b : float) : bool :=
  match a, b with
  | Fin x, Fin y => Qle_bool x y
  | _, _ => false
  end.

(** [a != b] on floats *)
Definition float_ne (a b : float) : bool :=
  match a, b with
  | Fin x, Fin y => negb (Qeq_bool x y)
  | _, _ => true
  end.

(** [Series >= scalar], [Series <= scalar], elementwise *)
Definition series_ge (s : list float) (x : float) : list bool :=
  map (fun v => float_ge v x) s.

Definition series_le (s : list float) (x : float) : list bool :=
  map (fun v => float_le v x) s.

Definition series_ge_int (s : list Z) (x : Z) : list bool :=
  map (fun v => Z.leb x v) s.

(** [Series.isin(values)] *)
Definition isin (s : list string) (values : list string) : list bool :=
  map (fun g => bool_decide (g ∈ values)) s.

(** [mask1 & mask2], elementwise *)
Fixpoint mask_and (a b : list bool) : list bool :=
  match a, b with
  | x :: a', y :: b' => (x && y) :: mask_and a' b'
  | _, _ => []
  end.

(** [frame[mask]]: a new frame with the rows whose mask cell is true,
    in the frame's order *)
Fixpoint getitem {A : Type} (frame : list A) (mask : list bool) : list A :=
  match frame, mask with
  | r :: frame', b :: mask' =>
      if b then r :: getitem frame' mask' else getitem frame' mask'
  | _, _ => []
  end.

(** [frame.copy()]: a new frame with the same rows *)
Definition copy {A : Type} (frame : list A) : list A := frame.

(** [Series.unique()]: the distinct values, in order of first occurrence *)
Fixpoint unique (s : list string) : list string :=
  match s with
  | [] => []
  | x :: s' => x :: List.filter (fun y => negb (String.eqb x y)) (unique s')
  end.

(** [sorted(values)] for strings *)
Fixpoint insert_sorted (x : string) (l : list string) : list string :=
  match l with
  | [] => [x]
  | y :: l' => if String.leb x y then x :: l else y :: insert_sorted x l'
  end.

Definition sorted (l : list string) : list string :=
  foldr insert_sorted [] l.

(** [Series.max()] of a float column: NaN cells are skipped; NaN when no
    finite cell is left *)
Definition float_max2 (a b : float) : float :=
  match a, b with
  | Fin x, Fin y => if Qle_bool x y then Fin y else Fin x
  | Fin x, NaN => Fin x
  | NaN, b => b
  end.

Definition series_max (s : list float) : float :=
  foldr float_max2 NaN s.

(** What a float64 computation returns. *)
Inductive number : Type :=
| Finite (q : Q)
| NegZero
| Infinite (negative : bool)
| NotANumber.

(** [Series.mean()] of a float64 column and of an int64 column.  pandas
    computes both in float64; the order in which it adds the cells and the
    rounding of each step are the library's, so the two functions are taken
    as an interface.  The one law: the mean of a single int64 cell that
    float64 holds exactly is that cell. *)
Class Reductions : Type := {
  series_mean : list float -> number;
  series_mean_int : list Z -> number;
  series_mean_int_single :
    forall v : Z, (Z.abs v <= 2 ^ 53)%Z -> series_mean_int [v] = Finite (inject_Z v)
}.

(** An implementation of the interface that adds and divides without
    rounding (a single int64 cell is returned as it is).  It is no model of
    pandas: it shows that the interface has an implementation and serves
    where a statement is evaluated on sample data. *)
Definition finite_cells (s : list float) : list Q :=
  omap (fun v => match v with Fin q => Some q | NaN => None end) s.

Definition Qsum (l : list Q) : Q := foldr Qplus 0%Q l.

Definition Zsum (l : list Z) : Z := foldr Z.add 0 l.

Definition exact_reductions : Reductions :=
  {| series_mean := fun s =>
       match finite_cells s with
       | [] => NotANumber
       | vs => Finite (Qsum vs / inject_Z (Z.of_nat (length vs)))
       end;
     series_mean_int := fun s =>
       match s with
       | [] => NotANumber
       | [v] => Finite (inject_Z v)
       | _ => Finite (inject_Z (Zsum s) / inject_Z (Z.of_nat (length s)))
       end;
     series_mean_int_single := fun v _ => eq_refl |}.

(** [DataFrame.nlargest(n, column)] on an int64 column, by the library's
    documented contract: the result of
    [sort_values(column, ascending=False).head(n)], where the default
    keep='first' puts rows with equal cells in the frame's order.  The sort
    is written as an insertion sort that places a row before the rows
    already sorted that have the same cell. *)
Section Nlargest.
Context {A : Type} (key : A -> Z).

Fixpoint insert_desc (x : A) (l : list A) : list A :=
  match l with
  | [] => [x]
  | y :: l' => if Z.ltb (key x) (key y) then y :: insert_desc x l' else x :: l
  end.

Definition sort_values_desc (frame : list A) : list A :=
  foldr insert_desc [] frame.

Definition head (n : nat) (frame : list A) : list A := take n frame.

Definition nlargest (n : nat) (frame : list A) : list A :=
  head n (sort_values_desc frame).
End Nlargest.

End Pandas.

(** ** Python: comparison and string formatting of numbers *)

Module Python.
Import Pandas.

(** [a > b] on floats *)
Definition float_gt (a b : float) : bool :=
  match a, b with
  | Fin x, Fin y => negb (Qle_bool x y)
  | _, _ => false
  end.

(** the integer nearest to [x], ties to the even one *)
Definition round_half_even (x : Q) : Z :=
  let f := Qfloor x in
  match Qcompare (x - inject_Z f) (1 # 2) with
  | Lt => f
  | Gt => f + 1
  | Eq => if Z.even f then f else f + 1
  end.

(** the character of a decimal digit, and back *)
Definition digit_char (n : N) : ascii := ascii_of_N (48 + n mod 10).


(** the last [d] decimal digits of [n], put in front of [tail] *)
Fixpoint digits_width (d : nat) (n : N) (tail : string) : string :=
  match d with
  | O => tail
  | S d' => digits_width d' (n / 10) (String (digit_char n) tail)
  end.

(** the number of decimal digits of [n], one for zero *)
Fixpoint ndigits_fuel (fuel : nat) (n : N) : nat :=
  match fuel with
  | O => 1
  | S f => if N.ltb n 10 then 1%nat else S (ndigits_fuel f (n / 10))
  end.

Definition ndigits (n : N) : nat := ndigits_fuel (N.to_nat (N.log2 n)) n.

(** [str(n)] for a natural number *)
Definition str_N (n : N) : string := digits_width (ndigits n) n "".

(** [str(n)] for an integer *)
Definition str_Z (n : Z) : string :=
  if Z.ltb n 0 then String "-" (str_N (Z.abs_N n)) else str_N (Z.abs_N n).

(** the scaled integer that [format(x, '.df')] prints: [|x| * 10^d]
    rounded to the nearest integer *)
Definition fixed_digits (d : nat) (q : Q) : Z :=
  round_half_even (Qabs q * inject_Z (10 ^ Z.of_nat d)).

(** the numeral of [k / 10^d] with [d] fraction digits; no point when
    [d] is zero *)
Definition fixed_numeral (d : nat) (k : N) : string :=
  let p := (10 ^ N.of_nat d)%N in
  digits_width (ndigits (k / p)) (k / p)
    match d with
    | O => ""
    | S _ => String "." (digits_width d (k mod p) "")
    end.

Definition is_negative (q : Q) : bool :=
  if Qlt_le_dec q 0 then true else false.

(** [format(x, '.df')] *)
Definition format_fixed (d : nat) (x : number) : string :=
  match x with
  | NotANumber => "nan"
  | Infinite negative => if negative then "-inf" else "inf"
  | NegZero => String "-" (fixed_numeral d 0)
  | Finite q =>
      let numeral := fixed_numeral d (Z.to_N (fixed_digits d q)) in
      if is_negative q then String "-" numeral else numeral
  end.





End Python.

Import Pandas Python.

(** ** Streamlit_3.py *)

(** One row of Final_movies.csv. *)
Record MovieRecord : Type := {
  Title : string;
  Genre : string;
  Duration : float;
  Rating : float;
  Votes : Z
}.

Definition DataFrame : Type := list MovieRecord.

(** The values the filter stage reads: the multiselect's list and the four
    resolved bounds (the script's variables of the same names). *)
Record Criteria : Type := {
  selected_genres : list string;
  min_duration : float;
  max_duration : float;
  min_rating : float;
  min_votes : Z
}.

(** [genres = sorted(df['Genre'].unique())] *)
Definition genres (df : DataFrame) : list string :=
  sorted (unique (map Genre df)).

(** The keys of [duration_options], [rating_options] and [vote_options]. *)
Inductive DurationOption : Type :=
| AllDurations | Short | Medium | Long.

Inductive RatingOption : Type :=
| AnyRating | Good | VeryGood | Excellent | Outstanding.

Inductive VoteOption : Type :=
| AnyVotes | Popular | VeryPopular | Blockbuster | SuperHit.

Definition duration_label (o : DurationOption) : string :=
  match o with
  | AllDurations => "All Durations"
  | Short => "Short (< 2 hrs)"
  | Medium => "Medium (2-3 hrs)"
  | Long => "Long (> 3 hrs)"
  end.

Definition duration_options (df : DataFrame) (o : DurationOption) : float * float :=
  match o with
  | AllDurations => (Fin 0, series_max (map Duration df))
  | Short => (Fin 0, Fin 2)
  | Medium => (Fin 2, Fin 3)
  | Long => (Fin 3, series_max (map Duration df))
  end.

Definition rating_options (o : RatingOption) : float :=
  match o with
  | AnyRating => Fin 0
  | Good => Fin 6
  | VeryGood => Fin 7
  | Excellent => Fin 8
  | Outstanding => Fin 9
  end.

Definition vote_options (o : VoteOption) : Z :=
  match o with
  | AnyVotes => 0
  | Popular => 1000
  | VeryPopular => 10000
  | Blockbuster => 50000
  | SuperHit => 100000
  end.

(** Lines 59-61: the custom range replaces the predefined one when either
    end differs. *)
Definition resolve_duration (predefined custom : float * float) : float * float :=
  let '(min_d, max_d) := predefined in
  let '(custom_min, custom_max) := custom in
  if float_ne custom_min min_d || float_ne custom_max max_d
  then (custom_min, custom_max)
  else (min_d, max_d).

(** Lines 92-94. *)
Definition resolve_rating (predefined custom_rating : float) : float :=
  if float_ne custom_rating predefined then custom_rating else predefined.

(** Lines 125-127. *)
Definition resolve_votes (predefined custom_votes : Z) : Z :=
  if negb (Z.eqb custom_votes predefined) then custom_votes else predefined.

(** What the sidebar widgets return on one run of the script. *)
Record Widgets : Type := {
  w_selected_genres : list string;
  w_selected_duration : DurationOption;
  w_custom_duration : float * float;
  w_selected_rating : RatingOption;
  w_custom_rating : float;
  w_selected_votes : VoteOption;
  w_custom_votes : Z
}.

(** Lines 22-127: from the widgets to the resolved criteria. *)
Definition resolve (df : DataFrame) (w : Widgets) : Criteria :=
  let d := resolve_duration (duration_options df (w_selected_duration w))
                            (w_custom_duration w) in
  {| selected_genres := w_selected_genres w;
     min_duration := fst d;
     max_duration := snd d;
     min_rating := resolve_rating (rating_options (w_selected_rating w)) (w_custom_rating w);
     min_votes := resolve_votes (vote_options (w_selected_votes w)) (w_custom_votes w) |}.

(** Lines 135-140: the combined boolean mask. *)
Definition bounds_mask (frame : DataFrame) (c : Criteria) : list bool :=
  mask_and
    (mask_and
       (mask_and (series_ge (map Duration frame) (min_duration c))
                 (series_le (map Duration frame) (max_duration c)))
       (series_ge (map Rating frame) (min_rating c)))
    (series_ge_int (map Votes frame) (min_votes c)).

(** Lines 130-140: [filtered_df]. *)
Definition apply_filters (df : DataFrame) (c : Criteria) : DataFrame :=
  let filtered_df := copy df in
  let filtered_df :=
    match selected_genres c with
    | [] => filtered_df
    | _ :: _ => getitem filtered_df (isin (map Genre filtered_df) (selected_genres c))
    end in
  getitem filtered_df (bounds_mask filtered_df c).

(** Line 201: [top_movies]; the column selection keeps the five columns. *)
Definition select_columns (r : MovieRecord) : MovieRecord :=
  {| Title := Title r; Rating := Rating r; Votes := Votes r;
     Duration := Duration r; Genre := Genre r |}.

Definition top_movies (filtered_df : DataFrame) : DataFrame :=
  map select_columns (nlargest Votes 10 filtered_df).

(** Lines 142-218: what the page shows below the sidebar. *)
Inductive Element : Type :=
| Subheader (text : string)
| Warning (text : string)
| Metric (label value : string)
| Table (frame : DataFrame)
| Histogram (frame : DataFrame)
| Scatter (frame : DataFrame) (color_by_genre : bool)
| BarChart (frame : DataFrame)
| DownloadButton (frame : DataFrame).

Definition no_matches : string :=
  "No movies match your filters. Try adjusting your criteria.".

(** Lines 145-153 and 142-218.  [len(filtered_df)] is printed as an
    integer, the means with [:.2f], [:.2f] and [:.0f]. *)
Section Display.
Context `{Reductions}.

Definition metrics (filtered_df : DataFrame) : list Element :=
  [ Metric "Total Movies" (str_N (N.of_nat (length filtered_df)));
    Metric "Average Rating" (format_fixed 2 (series_mean (map Rating filtered_df)));
    Metric "Average Duration"
           (format_fixed 2 (series_mean (map Duration filtered_df)) +:+ " hrs");
    Metric "Average Votes" (format_fixed 0 (series_mean_int (map Votes filtered_df))) ].

Definition display_results (filtered_df : DataFrame) (sel : list string) : list Element :=
  Subheader ("Filtered Movies (" +:+ str_N (N.of_nat (length filtered_df)) +:+ " found)") ::
  if Nat.eqb (length filtered_df) 0
  then [ Warning no_matches ]
  else metrics filtered_df ++
       [ Table filtered_df;
         Subheader "Data Visualizations";
         Histogram filtered_df;
         Scatter filtered_df (bool_decide (1 < length sel)%nat);
         BarChart (top_movies filtered_df);
         DownloadButton filtered_df ].

(** The whole run: resolve the widgets, filter, display. *)
Definition script (df : DataFrame) (w : Widgets) : list Element :=
  display_results (apply_filters df (resolve df w)) (w_selected_genres w).

End Display.



(** ** The filter stage over a store of frames

    Frames are objects: the script's variables hold references, [copy] and
    boolean indexing allocate a new frame, and nothing in lines 130-140
    writes to an existing one. *)

Module Heap.

Definition M (A : Type) : Type :=
  gmap nat DataFrame -> option (A * gmap nat DataFrame).

Definition ret {A : Type} (a : A) : M A := fun s => Some (a, s).

Definition bind {A B : Type} (m : M A) (k : A -> M B) : M B :=
  fun s => match m s with
           | Some (a, s') => k a s'
           | None => None
           end.

Notation "'let*' x := m 'in' k" := (bind m (fun x => k))
  (at level 10, x name, m at level 100, k at level 200).

(** a reference that is not yet in use *)
Definition alloc (frame : DataFrame) : M nat :=
  fun s => let l := fresh (dom s) in Some (l, <[l := frame]> s).

(** dereference; a dangling reference is an error *)
Definition read (l : nat) : M DataFrame :=
  fun s => match s !! l with
           | Some frame => Some (frame, s)
           | None => None
           end.

Definition df_copy (l : nat) : M nat :=
  let* frame := read l in alloc (copy frame).

Definition df_getitem (l : nat) (mask : DataFrame -> list bool) : M nat :=
  let* frame := read l in alloc (getitem frame (mask frame)).

(** Lines 130-140, with [df] a reference. *)
Definition filter_stage (df : nat) (c : Criteria) : M nat :=
  let* filtered_df := df_copy df in
  let* filtered_df :=
    match selected_genres c with
    | [] => ret filtered_df
    | _ :: _ =>
        df_getitem filtered_df (fun frame => isin (map Genre frame) (selected_genres c))
    end in
  df_getitem filtered_df (fun frame => bounds_mask frame c).

End Heap.

(** ** The specification's reading of the filter *)

(** [a <= b] on floats, as a proposition: both finite and ordered. *)
Definition Fle (a b : float) : Prop :=
  match a, b with
  | Fin x, Fin y => (x <= y)%Q
  | _, _ => False
  end.

(** A record satisfies the conjunction of the four filters. *)
Definition satisfies (c : Criteria) (r : MovieRecord) : Prop :=
  (selected_genres c = [] \/ Genre r ∈ selected_genres c) /\
  Fle (min_duration c) (Duration r) /\ Fle (Duration r) (max_duration c) /\
  Fle (min_rating c) (Rating r) /\
  (min_votes c <= Votes r)%Z.

(** The same, row by row, as the masks compute it. *)
Definition passes (c : Criteria) (r : MovieRecord) : bool :=
  match selected_genres c with
  | [] => true
  | _ :: _ => bool_decide (Genre r ∈ selected_genres c)
  end
  && (float_ge (Duration r) (min_duration c) && float_le (Duration r) (max_duration c)
      && float_ge (Rating r) (min_rating c) && Z.leb (min_votes c) (Votes r)).

(** The criteria with one field replaced. *)
Definition with_genres (c : Criteria) (gs : list string) : Criteria :=
  {| selected_genres := gs;
     min_duration := min_duration c;
     max_duration := max_duration c;
     min_rating := min_rating c;
     min_votes := min_votes c |}.

Definition with_min_duration (c : Criteria) (x : float) : Criteria :=
  {| selected_genres := selected_genres c;
     min_duration := x;
     max_duration := max_duration c;
     min_rating := min_rating c;
     min_votes := min_votes c |}.

Definition with_max_duration (c : Criteria) (x : float) : Criteria :=
  {| selected_genres := selected_genres c;
     min_duration := min_duration c;
     max_duration := x;
     min_rating := min_rating c;
     min_votes := min_votes c |}.

Definition with_min_rating (c : Criteria) (x : float) : Criteria :=
  {| selected_genres := selected_genres c;
     min_duration := min_duration c;
     max_duration := max_duration c;
     min_rating := x;
     min_votes := min_votes c |}.

Definition with_min_votes (c : Criteria) (n : Z) : Criteria :=
  {| selected_genres := selected_genres c;
     min_duration := min_duration c;
     max_duration := max_duration c;
     min_rating := min_rating c;
     min_votes := n |}.

(** [c'] widens exactly one bound of [c]; [enlarges] says when a genre
    selection counts as enlarged. *)
Inductive widens (enlarges : list string -> list string -> Prop) (c : Criteria)
  : Criteria -> Prop :=
| widen_min_rating x :
    Fle x (min_rating c) -> widens enlarges c (with_min_rating c x)
| widen_min_votes n :
    (n <= min_votes c)%Z -> widens enlarges c (with_min_votes c n)
| widen_min_duration x :
    Fle x (min_duration c) -> widens enlarges c (with_min_duration c x)
| widen_max_duration x :
    Fle (max_duration c) x -> widens enlarges c (with_max_duration c x)
| widen_genres gs :
    enlarges (selected_genres c) gs -> widens enlarges c (with_genres c gs).

(** The genre set a selection stands for: the selection itself, and every
    genre of the dataset when nothing is selected (line 133 filters only on
    a selection that is not empty). *)
Definition genre_set (df : DataFrame) (gs : list string) : list string :=
  match gs with
  | [] => genres df
  | _ :: _ => gs
  end.

(** The genre set is enlarged. *)
Definition enlarges_genre_set (df : DataFrame) (gs gs' : list string) : Prop :=
  genre_set df gs ⊆ genre_set df gs'.

(** A superset of a selection that filters at all. *)
Definition superset_of_nonempty (gs gs' : list string) : Prop :=
  gs <> [] /\ gs ⊆ gs'.

(** [a != b] on floats, as a proposition. *)
Definition Fne (a b : float) : Prop :=
  match a, b with
  | Fin x, Fin y => ~ (x == y)%Q
  | _, _ => True
  end.

(** A stable descending arrangement [s] of [frame] by [key]: descending, and
    for each key value the rows with that value are those of [frame], in
    [frame]'s order. *)
Definition desc {A : Type} (key : A -> Z) (a b : A) : Prop := (key b <= key a)%Z.

Definition has {A : Type} (key : A -> Z) (v : Z) (r : A) : bool := Z.eqb (key r) v.

Definition stably_sorted_desc {A : Type} (key : A -> Z) (frame s : list A) : Prop :=
  StronglySorted (desc key) s /\
  forall v, List.filter (has key v) s = List.filter (has key v) frame.

(** The widgets with a predefined duration option chosen and the custom
    slider left at that option's range. *)
Definition no_override (df : DataFrame) (w : Widgets) (o : DurationOption) : Prop :=
  w_selected_duration w = o /\ w_custom_duration w = duration_options df o.

(** The cell is a finite number equal to [x]. *)
Definition is_exactly (v : float) (x : Q) : Prop :=
  match v with
  | Fin q => (q == x)%Q
  | NaN => False
  end.

(** ** Sample data: the two records of the specification's examples *)

Definition movie_A : MovieRecord :=
  {| Title := "A"; Genre := "Drama"; Duration := Fin 2;
     Rating := Fin (15 # 2); Votes := 5000 |}.

Definition movie_B : MovieRecord :=
  {| Title := "B"; Genre := "Comedy"; Duration := Fin (3 # 2);
     Rating := Fin 6; Votes := 200 |}.

Definition criteria_any : Criteria :=
  {| selected_genres := []; min_duration := Fin 0; max_duration := Fin 3;
     min_rating := Fin 0; min_votes := 0 |}.

Definition sample_df : DataFrame := [movie_A; movie_B].

Definition sample_criteria : Criteria :=
  {| selected_genres := []; min_duration := Fin 0; max_duration := Fin 3;
     min_rating := Fin 7; min_votes := 0 |}.

(** What the range slider of lines 50-56 returns while the user has not
    moved it: its [value], the two ends in order. *)
Definition slider_at_rest (value : float * float) : float * float :=
  let '(start, stop) := value in
  if float_gt start stop then (stop, start) else (start, stop).

(** Nothing touched in the sidebar: every radio on its first option and
    every slider at rest. *)
Definition untouched (df : DataFrame) : Widgets :=
  {| w_selected_genres := [];
     w_selected_duration := AllDurations;
     w_custom_duration := slider_at_rest (duration_options df AllDurations);
     w_selected_rating := AnyRating;
     w_custom_rating := rating_options AnyRating;
     w_selected_votes := AnyVotes;
     w_custom_votes := vote_options AnyVotes |}.

(** Another duration option chosen, the range slider at rest. *)
Definition with_duration_option (df : DataFrame) (w : Widgets) (o : DurationOption) : Widgets :=
  {| w_selected_genres := w_selected_genres w;
     w_selected_duration := o;
     w_custom_duration := slider_at_rest (duration_options df o);
     w_selected_rating := w_selected_rating w;
     w_custom_rating := w_custom_rating w;
     w_selected_votes := w_selected_votes w;
     w_custom_votes := w_custom_votes w |}.

(** ** The specification's reading of the aggregates *)


(** The criteria read off the multiselect and the three sliders alone. *)
Definition slider_criteria (w : Widgets) : Criteria :=
  {| selected_genres := w_selected_genres w;
     min_duration := fst (w_custom_duration w);
     max_duration := snd (w_custom_duration w);
     min_rating := w_custom_rating w;
     min_votes := w_custom_votes w |}.

(** * Proofs *)

(** ** Masks and boolean indexing *)

Section Masks.
Context {A : Type}.

Lemma getitem_map (p : A -> bool) (frame : list A) :
  getitem frame (map p frame) = List.filter p frame.
Proof.
  induction frame as [|r frame IH]; simpl; [reflexivity|].
  rewrite IH. reflexivity.
Qed.

Lemma mask_and_map {B C : Type} (f : B -> bool) (g : C -> bool)
      (h : A -> B) (k : A -> C) (frame : list A) :
  mask_and (map f (map h frame)) (map g (map k frame))
  = map (fun r => f (h r) && g (k r)) frame.
Proof.
  induction frame as [|r frame IH]; simpl; [reflexivity|].
  rewrite IH. reflexivity.
Qed.

Lemma mask_and_map_r {C : Type} (f : A -> bool) (g : C -> bool)
      (k : A -> C) (frame : list A) :
  mask_and (map f frame) (map g (map k frame))
  = map (fun r => f r && g (k r)) frame.
Proof.
  induction frame as [|r frame IH]; simpl; [reflexivity|].
  rewrite IH. reflexivity.
Qed.

Lemma filter_filter_andb (p q : A -> bool) (frame : list A) :
  List.filter q (List.filter p frame) = List.filter (fun r => p r && q r) frame.
Proof.
  induction frame as [|r frame IH]; simpl; [reflexivity|].
  destruct (p r); simpl; [destruct (q r)|]; rewrite IH; reflexivity.
Qed.

Lemma filter_sublist (p : A -> bool) (frame : list A) :
  List.filter p frame `sublist_of` frame.
Proof.
  induction frame as [|r frame IH]; simpl; [constructor|].
  destruct (p r); [apply sublist_skip | apply sublist_cons]; exact IH.
Qed.

Lemma filter_all (p : A -> bool) (frame : list A) :
  (forall r, r ∈ frame -> p r = true) -> List.filter p frame = frame.
Proof.
  induction frame as [|r frame IH]; simpl; intros H; [reflexivity|].
  rewrite (H r) by apply list_elem_of_here.
  f_equal. apply IH. intros r' Hr'. apply H. apply list_elem_of_further, Hr'.
Qed.

Lemma filter_ext_in (p q : A -> bool) (frame : list A) :
  (forall r, r ∈ frame -> p r = q r) -> List.filter p frame = List.filter q frame.
Proof.
  induction frame as [|r frame IH]; simpl; intros H; [reflexivity|].
  rewrite (H r) by apply list_elem_of_here.
  rewrite IH; [reflexivity|].
  intros r' Hr'. apply H. apply list_elem_of_further, Hr'.
Qed.

Lemma elem_of_filter (p : A -> bool) (frame : list A) (r : A) :
  r ∈ List.filter p frame <-> r ∈ frame /\ p r = true.
Proof.
  rewrite !list_elem_of_In. apply filter_In.
Qed.
End Masks.

(** ** The filter stage is a row-wise filter *)

Lemma bounds_mask_rows (frame : DataFrame) (c : Criteria) :
  bounds_mask frame c
  = map (fun r => float_ge (Duration r) (min_duration c)
                  && float_le (Duration r) (max_duration c)
                  && float_ge (Rating r) (min_rating c)
                  && Z.leb (min_votes c) (Votes r)) frame.
Proof.
  unfold bounds_mask, series_ge, series_le, series_ge_int.
  rewrite mask_and_map, !mask_and_map_r. reflexivity.
Qed.

Lemma apply_filters_rows (df : DataFrame) (c : Criteria) :
  apply_filters df c = List.filter (passes c) df.
Proof.
  unfold apply_filters, copy, passes.
  destruct (selected_genres c) as [|g gs] eqn:Hg.
  - rewrite bounds_mask_rows, getitem_map. reflexivity.
  - unfold isin. rewrite (map_map Genre), getitem_map.
    rewrite bounds_mask_rows, getitem_map, filter_filter_andb. reflexivity.
Qed.

Lemma float_ge_Fle (a b : float) : float_ge a b = true <-> Fle b a.
Proof.
  destruct a, b; simpl; try (split; [discriminate | tauto]).
  apply Qle_bool_iff.
Qed.

Lemma float_le_Fle (a b : float) : float_le a b = true <-> Fle a b.
Proof.
  destruct a, b; simpl; try (split; [discriminate | tauto]).
  apply Qle_bool_iff.
Qed.

Lemma passes_satisfies (c : Criteria) (r : MovieRecord) :
  passes c r = true <-> satisfies c r.
Proof.
  unfold passes, satisfies.
  rewrite !andb_true_iff, !float_ge_Fle, float_le_Fle, Z.leb_le.
  destruct (selected_genres c) as [|g gs] eqn:Hg.
  - intuition.
  - rewrite bool_decide_eq_true. intuition discriminate.
Qed.

Lemma elem_of_apply_filters (df : DataFrame) (c : Criteria) (r : MovieRecord) :
  r ∈ apply_filters df c <-> r ∈ df /\ satisfies c r.
Proof.
  rewrite apply_filters_rows, elem_of_filter, passes_satisfies. reflexivity.
Qed.

(** C1. A record appears in the filtered result iff it is a record of the
    dataset that satisfies the conjunction of the four filters: genre in the
    selected set (or the set is empty), min_duration <= Duration <=
    max_duration with both ends included, Rating >= min_rating, and
    Votes >= min_votes. *)
Theorem filtered_iff_all_filters (df : DataFrame) (c : Criteria) (r : MovieRecord) :
  r ∈ apply_filters df c <->
  r ∈ df /\
  (selected_genres c = [] \/ Genre r ∈ selected_genres c) /\
  Fle (min_duration c) (Duration r) /\ Fle (Duration r) (max_duration c) /\
  Fle (min_rating c) (Rating r) /\
  (min_votes c <= Votes r)%Z.
Proof.
  rewrite elem_of_apply_filters. unfold satisfies. reflexivity.
Qed.

(** C2. The filtered result is a subsequence of the dataset: its records
    occur in the dataset, in the dataset's order, none made up and none
    repeated; and when no record satisfies the criteria the result is the
    empty frame, an ordinary value. *)
Theorem filtered_is_subsequence (df : DataFrame) (c : Criteria) :
  apply_filters df c `sublist_of` df /\
  (forall r, r ∈ apply_filters df c -> r ∈ df) /\
  (length (apply_filters df c) <= length df)%nat /\
  ((forall r, r ∈ df -> ~ satisfies c r) -> apply_filters df c = []).
Proof.
  rewrite apply_filters_rows.
  pose proof (filter_sublist (passes c) df) as Hsub.
  repeat split.
  - exact Hsub.
  - intros r Hr. apply elem_of_filter in Hr. tauto.
  - apply sublist_length, Hsub.
  - intros Hnone.
    destruct (List.filter (passes c) df) as [|r rest] eqn:Hf; [reflexivity|].
    assert (Hr : r ∈ List.filter (passes c) df) by (rewrite Hf; apply list_elem_of_here).
    apply elem_of_filter in Hr. destruct Hr as [Hin Hp].
    apply passes_satisfies in Hp. destruct (Hnone r Hin Hp).
Qed.

(** C8. Filtering the filtered subset again with the same criteria gives
    the same subset, in the same order. *)
Theorem filtering_idempotent (df : DataFrame) (c : Criteria) :
  apply_filters (apply_filters df c) c = apply_filters df c.
Proof.
  rewrite !apply_filters_rows, filter_filter_andb.
  apply filter_ext_in. intros r _. apply andb_diag.
Qed.

(** ** The genre list *)

Lemma elem_of_insert_sorted (x y : string) (l : list string) :
  y ∈ insert_sorted x l <-> y = x \/ y ∈ l.
Proof.
  induction l as [|z l IH]; simpl.
  - rewrite list_elem_of_singleton, elem_of_nil. tauto.
  - destruct (String.leb x z).
    + rewrite elem_of_cons. reflexivity.
    + rewrite !elem_of_cons, IH. tauto.
Qed.

Lemma elem_of_sorted (y : string) (l : list string) :
  y ∈ sorted l <-> y ∈ l.
Proof.
  unfold sorted. induction l as [|x l IH]; simpl; [reflexivity|].
  rewrite elem_of_insert_sorted, elem_of_cons, IH. reflexivity.
Qed.

Lemma elem_of_unique (y : string) (s : list string) :
  y ∈ unique s <-> y ∈ s.
Proof.
  induction s as [|x s IH]; simpl; [reflexivity|].
  rewrite !elem_of_cons, elem_of_filter, IH, negb_true_iff.
  destruct (String.eqb_spec x y) as [->|Hne].
  - tauto.
  - intuition congruence.
Qed.

Lemma elem_of_genres (df : DataFrame) (r : MovieRecord) :
  r ∈ df -> Genre r ∈ genres df.
Proof.
  intros Hr. unfold genres.
  rewrite elem_of_sorted, elem_of_unique.
  apply list_elem_of_In, in_map, list_elem_of_In, Hr.
Qed.

(** C6. With the other criteria fixed, the empty genre selection gives
    exactly the result of selecting every genre that occurs in the
    dataset. *)
Theorem empty_genres_is_all_genres (df : DataFrame) (c : Criteria) :
  apply_filters df (with_genres c []) = apply_filters df (with_genres c (genres df)).
Proof.
  rewrite !apply_filters_rows.
  apply filter_ext_in. intros r Hr.
  unfold passes; simpl.
  destruct (genres df) as [|g gs] eqn:Hg; [reflexivity|].
  rewrite <- Hg.
  rewrite (bool_decide_eq_true_2 _ (elem_of_genres df r Hr)). reflexivity.
Qed.

(** ** Monotonicity *)

Lemma Fle_trans (a b c : float) : Fle a b -> Fle b c -> Fle a c.
Proof.
  destruct a, b, c; simpl; try tauto. apply Qle_trans.
Qed.

Lemma satisfies_widens (c c' : Criteria) (r : MovieRecord) :
  widens superset_of_nonempty c c' -> satisfies c r -> satisfies c' r.
Proof.
  unfold satisfies.
  intros Hw (Hg & Hd1 & Hd2 & Hr & Hv).
  destruct Hw as [x Hx|n Hn|x Hx|x Hx|gs [Hne Hsub]]; simpl;
    repeat split; eauto using Fle_trans; try lia.
  right. destruct Hg as [Hg|Hg]; [contradiction|]. apply Hsub, Hg.
Qed.

Lemma satisfies_enlarged (df : DataFrame) (c c' : Criteria) (r : MovieRecord) :
  r ∈ df -> widens (enlarges_genre_set df) c c' -> satisfies c r -> satisfies c' r.
Proof.
  unfold satisfies.
  intros Hin Hw (Hg & Hd1 & Hd2 & Hr & Hv).
  destruct Hw as [x Hx|n Hn|x Hx|x Hx|gs Hsub]; simpl;
    repeat split; eauto using Fle_trans; try lia.
  assert (Hm : Genre r ∈ genre_set df (selected_genres c)).
  { destruct Hg as [Hg|Hg].
    - rewrite Hg. apply elem_of_genres, Hin.
    - destruct (selected_genres c); [apply elem_of_nil in Hg; destruct Hg | exact Hg]. }
  apply Hsub in Hm. destruct gs; [left; reflexivity | right; exact Hm].
Qed.

(** C7. Lowering min_rating, min_votes or min_duration, raising
    max_duration, or enlarging the genre set, with the other criteria fixed,
    never removes a record from the result.  The genre set of a selection is
    what the selection stands for: the empty selection stands for all genres
    of the dataset, so going from it to some genres is no enlargement, and
    going from any selection to the empty one is. *)
Theorem widening_never_shrinks (df : DataFrame) (c c' : Criteria) (r : MovieRecord) :
  widens (enlarges_genre_set df) c c' ->
  r ∈ apply_filters df c -> r ∈ apply_filters df c'.
Proof.
  intros Hw. rewrite !apply_filters_rows, !elem_of_filter, !passes_satisfies.
  intros [Hin Hs]. split; [exact Hin|].
  eapply satisfies_enlarged; eassumption.
Qed.

Lemma widening_never_shrinks_witness :
  widens (enlarges_genre_set sample_df) (with_genres criteria_any ["Drama"])
         (with_genres (with_genres criteria_any ["Drama"]) []) /\
  movie_A ∈ apply_filters sample_df (with_genres (with_genres criteria_any ["Drama"]) []).
Proof.
  assert (Hw : widens (enlarges_genre_set sample_df) (with_genres criteria_any ["Drama"])
                 (with_genres (with_genres criteria_any ["Drama"]) [])).
  { apply widen_genres. intros g Hg.
    apply list_elem_of_singleton in Hg. rewrite Hg.
    vm_compute. apply list_elem_of_further, list_elem_of_here. }
  split; [exact Hw|].
  apply (widening_never_shrinks sample_df _ _ movie_A Hw).
  vm_compute. apply list_elem_of_here.
Defined.

(** Going from the empty selection to some genres is no enlargement of the
    genre set, and it can remove records. *)
Example selecting_genres_is_no_enlargement :
  ~ enlarges_genre_set sample_df [] ["Drama"] /\
  movie_B ∈ apply_filters sample_df criteria_any /\
  ~ movie_B ∈ apply_filters sample_df (with_genres criteria_any ["Drama"]).
Proof.
  split; [|split].
  - intros Hsub.
    assert (Hc : "Comedy" ∈ genre_set sample_df [])
      by (vm_compute; apply list_elem_of_here).
    apply Hsub, list_elem_of_singleton in Hc. discriminate Hc.
  - vm_compute. apply list_elem_of_further, list_elem_of_here.
  - vm_compute. intros Hin. apply list_elem_of_singleton in Hin. discriminate Hin.
Qed.

(** ** Predefined options and custom sliders *)

Lemma float_ne_Fne (a b : float) : float_ne a b = true <-> Fne a b.
Proof.
  destruct a as [x|], b as [y|]; simpl; try tauto.
  rewrite negb_true_iff, <- not_true_iff_false, Qeq_bool_iff. reflexivity.
Qed.

Lemma float_ne_not_Fne (a b : float) : float_ne a b = false <-> ~ Fne a b.
Proof.
  rewrite <- float_ne_Fne. destruct (float_ne a b); intuition discriminate.
Qed.

Lemma resolve_duration_custom (predefined custom : float * float) :
  Fne (fst custom) (fst predefined) \/ Fne (snd custom) (snd predefined) ->
  resolve_duration predefined custom = custom.
Proof.
  destruct predefined as [lo hi], custom as [clo chi]; simpl.
  rewrite <- !float_ne_Fne, <- orb_true_iff. intros ->. reflexivity.
Qed.

Lemma resolve_duration_predefined (predefined custom : float * float) :
  ~ (Fne (fst custom) (fst predefined) \/ Fne (snd custom) (snd predefined)) ->
  resolve_duration predefined custom = predefined.
Proof.
  destruct predefined as [lo hi], custom as [clo chi]; simpl.
  rewrite <- !float_ne_Fne, <- orb_true_iff.
  intros H. apply not_true_is_false in H. rewrite H. reflexivity.
Qed.

(** C5. For duration (the pair of ends), rating and votes, each on its own:
    the effective bound is the custom slider's value when that value differs
    from the one the selected predefined option gives, and the predefined
    option's value otherwise. *)
Theorem custom_value_wins_when_different (df : DataFrame) (w : Widgets) :
  let c := resolve df w in
  let predefined_duration := duration_options df (w_selected_duration w) in
  let predefined_rating := rating_options (w_selected_rating w) in
  let predefined_votes := vote_options (w_selected_votes w) in
  ((Fne (fst (w_custom_duration w)) (fst predefined_duration) \/
    Fne (snd (w_custom_duration w)) (snd predefined_duration) ->
    (min_duration c, max_duration c) = w_custom_duration w) /\
   (~ (Fne (fst (w_custom_duration w)) (fst predefined_duration) \/
       Fne (snd (w_custom_duration w)) (snd predefined_duration)) ->
    (min_duration c, max_duration c) = predefined_duration)) /\
  ((Fne (w_custom_rating w) predefined_rating -> min_rating c = w_custom_rating w) /\
   (~ Fne (w_custom_rating w) predefined_rating -> min_rating c = predefined_rating)) /\
  ((w_custom_votes w <> predefined_votes -> min_votes c = w_custom_votes w) /\
   (w_custom_votes w = predefined_votes -> min_votes c = predefined_votes)).
Proof.
  cbv zeta. unfold resolve; simpl.
  repeat split.
  - intros H. rewrite <- surjective_pairing. apply resolve_duration_custom, H.
  - intros H. rewrite <- surjective_pairing. apply resolve_duration_predefined, H.
  - intros H. unfold resolve_rating. apply float_ne_Fne in H. rewrite H. reflexivity.
  - intros H. unfold resolve_rating. apply float_ne_not_Fne in H. rewrite H. reflexivity.
  - intros H. unfold resolve_votes. apply Z.eqb_neq in H. rewrite H. reflexivity.
  - intros H. unfold resolve_votes. apply Z.eqb_eq in H. rewrite H. reflexivity.
Qed.

(** ** Inclusive ends of the predefined duration ranges *)

Lemma series_max_ge (s : list float) (q : Q) :
  Fin q ∈ s -> Fle (Fin q) (series_max s).
Proof.
  induction s as [|v s IH]; intros Hin.
  - apply elem_of_nil in Hin. destruct Hin.
  - apply elem_of_cons in Hin. simpl.
    destruct Hin as [<-|Hin].
    + destruct (series_max s) as [m|]; simpl; [|apply Qle_refl].
      destruct (Qle_bool q m) eqn:E; simpl; [apply Qle_bool_iff, E | apply Qle_refl].
    + specialize (IH Hin). destruct (series_max s) as [m|]; simpl in *; [|destruct IH].
      destruct v as [x|]; simpl; [|exact IH].
      destruct (Qle_bool x m) eqn:E; simpl; [exact IH|].
      apply Qlt_le_weak. apply Qle_lt_trans with m; [exact IH|].
      apply Qnot_le_lt. intros Hle. apply Qle_bool_iff in Hle. congruence.
Qed.

Lemma resolve_duration_same (p : float * float) : resolve_duration p p = p.
Proof.
  destruct p as [lo hi]. simpl.
  destruct (float_ne lo lo || float_ne hi hi); reflexivity.
Qed.

(** C10. Without a custom override, a record of the dataset whose Duration
    is exactly 2.0 passes the duration filter under both "Short (< 2 hrs)"
    (bounds (0.0, 2.0)) and "Medium (2-3 hrs)" (bounds (2.0, 3.0)), and one
    whose Duration is exactly 3.0 passes it under both "Medium (2-3 hrs)"
    and "Long (> 3 hrs)": the ends of the predefined ranges are included,
    and such a record is in the result iff the other three filters let it
    through. *)
Theorem predefined_duration_ends_inclusive
        (df : DataFrame) (w : Widgets) (r : MovieRecord) (o : DurationOption) :
  r ∈ df ->
  no_override df w o ->
  (is_exactly (Duration r) 2 /\ (o = Short \/ o = Medium)) \/
  (is_exactly (Duration r) 3 /\ (o = Medium \/ o = Long)) ->
  duration_options df Short = (Fin 0, Fin 2) /\
  duration_options df Medium = (Fin 2, Fin 3) /\
  Fle (min_duration (resolve df w)) (Duration r) /\
  Fle (Duration r) (max_duration (resolve df w)) /\
  (r ∈ apply_filters df (resolve df w) <->
     (selected_genres (resolve df w) = [] \/ Genre r ∈ selected_genres (resolve df w)) /\
     Fle (min_rating (resolve df w)) (Rating r) /\
     (min_votes (resolve df w) <= Votes r)%Z).
Proof.
  intros Hin [Hsel Hcustom] Hcase.
  assert (Hd : Fle (min_duration (resolve df w)) (Duration r) /\
               Fle (Duration r) (max_duration (resolve df w))).
  { unfold resolve; simpl. rewrite Hsel, Hcustom, resolve_duration_same.
    assert (Hmax : forall q, Duration r = Fin q ->
                             Fle (Fin q) (series_max (map Duration df))).
    { intros q Hq. apply series_max_ge. rewrite <- Hq.
      apply list_elem_of_In, in_map, list_elem_of_In, Hin. }
    destruct (Duration r) as [q|] eqn:HD; simpl in Hcase; [|tauto].
    destruct Hcase as [[Hq [->| ->]]|[Hq [->| ->]]]; simpl;
      try (split; lra).
    split; [lra | apply Hmax; reflexivity]. }
  split; [reflexivity|]. split; [reflexivity|].
  split; [apply Hd|]. split; [apply Hd|].
  rewrite elem_of_apply_filters. unfold satisfies. tauto.
Qed.

Lemma predefined_duration_ends_inclusive_witness :
  movie_A ∈ sample_df /\
  no_override sample_df (with_duration_option sample_df (untouched sample_df) Medium) Medium /\
  movie_A ∈ apply_filters sample_df
              (resolve sample_df (with_duration_option sample_df (untouched sample_df) Medium)).
Proof.
  assert (Hin : movie_A ∈ sample_df) by apply list_elem_of_here.
  assert (Hno : no_override sample_df
                  (with_duration_option sample_df (untouched sample_df) Medium) Medium)
    by (split; reflexivity).
  split; [exact Hin|]. split; [exact Hno|].
  apply (predefined_duration_ends_inclusive sample_df _ movie_A Medium Hin Hno).
  - left. split; [reflexivity | right; reflexivity].
  - split; [left; reflexivity|]. split; vm_compute; discriminate.
Defined.

(** ** The filter stage over the store *)

Section HeapFacts.
Import Heap.

Lemma alloc_fresh (frame : DataFrame) (s : gmap nat DataFrame) :
  exists l, alloc frame s = Some (l, <[l := frame]> s) /\ s !! l = None.
Proof.
  exists (fresh (dom s)). split; [reflexivity|].
  apply not_elem_of_dom, is_fresh.
Qed.

Lemma df_getitem_fresh (l : nat) (mask : DataFrame -> list bool)
      (frame : DataFrame) (s : gmap nat DataFrame) :
  s !! l = Some frame ->
  exists l', df_getitem l mask s
             = Some (l', <[l' := getitem frame (mask frame)]> s)
             /\ s !! l' = None.
Proof.
  intros Hl. unfold df_getitem, bind, read. rewrite Hl.
  apply alloc_fresh.
Qed.

Lemma df_copy_fresh (l : nat) (frame : DataFrame) (s : gmap nat DataFrame) :
  s !! l = Some frame ->
  exists l', df_copy l s = Some (l', <[l' := copy frame]> s) /\ s !! l' = None.
Proof.
  intros Hl. unfold df_copy, bind, read. rewrite Hl.
  apply alloc_fresh.
Qed.

(** What one run of lines 130-140 does to the store: it ends normally,
    the result is a new object holding [apply_filters], and the store
    only grew. *)
Lemma filter_stage_run (s : gmap nat DataFrame) (df : nat) (D : DataFrame)
      (c : Criteria) :
  s !! df = Some D ->
  exists filtered_df s',
    filter_stage df c s = Some (filtered_df, s') /\
    s !! filtered_df = None /\
    s' !! filtered_df = Some (apply_filters D c) /\
    s ⊆ s'.
Proof.
  intros Hdf. unfold filter_stage, bind at 1.
  destruct (df_copy_fresh df D s Hdf) as (l1 & -> & Hl1).
  assert (Hs1 : s ⊆ <[l1 := copy D]> s) by (apply insert_subseteq, Hl1).
  unfold apply_filters.
  destruct (selected_genres c) as [|g gs] eqn:Hg.
  - unfold bind, ret.
    destruct (df_getitem_fresh l1 (fun frame => bounds_mask frame c) (copy D)
                (<[l1 := copy D]> s)) as (l2 & -> & Hl2);
      [apply lookup_insert_eq|].
    exists l2, (<[l2 := getitem (copy D) (bounds_mask (copy D) c)]> (<[l1 := copy D]> s)).
    split; [reflexivity|]. split.
    + destruct (s !! l2) eqn:E; [|reflexivity].
      eapply lookup_weaken in E; [|exact Hs1]. congruence.
    + split; [apply lookup_insert_eq|].
      etransitivity; [exact Hs1 | apply insert_subseteq, Hl2].
  - unfold bind at 1.
    destruct (df_getitem_fresh l1 (fun frame => isin (map Genre frame) (g :: gs))
                (copy D) (<[l1 := copy D]> s)) as (l2 & -> & Hl2);
      [apply lookup_insert_eq|].
    set (F := getitem (copy D) (isin (map Genre (copy D)) (g :: gs))) in *.
    set (s2 := <[l2 := F]> (<[l1 := copy D]> s)).
    assert (Hs2 : <[l1 := copy D]> s ⊆ s2) by (apply insert_subseteq, Hl2).
    destruct (df_getitem_fresh l2 (fun frame => bounds_mask frame c) F s2)
      as (l3 & -> & Hl3); [apply lookup_insert_eq|].
    exists l3, (<[l3 := getitem F (bounds_mask F c)]> s2).
    split; [reflexivity|]. split.
    + destruct (s !! l3) eqn:E; [|reflexivity].
      eapply lookup_weaken in E; [|etransitivity; [exact Hs1 | exact Hs2]].
      congruence.
    + split; [apply lookup_insert_eq|].
      etransitivity; [exact Hs1|].
      etransitivity; [exact Hs2 | apply insert_subseteq, Hl3].
Qed.
End HeapFacts.

(** C9. Filtering never mutates the base dataset: the filter stage ends
    normally, its result is another object than [df], and afterwards [df]
    (and every other frame that existed before) holds exactly the records
    it held before, in the same order. *)
Theorem filtering_leaves_dataset_untouched
        (s : gmap nat DataFrame) (df : nat) (D : DataFrame) (c : Criteria) :
  s !! df = Some D ->
  exists filtered_df s',
    Heap.filter_stage df c s = Some (filtered_df, s') /\
    s' !! df = Some D /\
    filtered_df <> df /\
    s' !! filtered_df = Some (apply_filters D c) /\
    (forall l frame, s !! l = Some frame -> s' !! l = Some frame).
Proof.
  intros Hdf.
  destruct (filter_stage_run s df D c Hdf) as (l & s' & Hrun & Hnew & Hres & Hsub).
  exists l, s'. split; [exact Hrun|].
  split; [eapply lookup_weaken; eassumption|].
  split; [congruence|].
  split; [exact Hres|].
  intros l' frame Hl'. eapply lookup_weaken; eassumption.
Qed.

Lemma filtering_leaves_dataset_untouched_witness :
  ({[ 0%nat := sample_df ]} : gmap nat DataFrame) !! 0%nat = Some sample_df /\
  exists filtered_df s',
    Heap.filter_stage 0 sample_criteria {[ 0%nat := sample_df ]} = Some (filtered_df, s') /\
    s' !! 0%nat = Some sample_df /\
    filtered_df <> 0%nat /\
    s' !! filtered_df = Some (apply_filters sample_df sample_criteria) /\
    (forall l frame, ({[ 0%nat := sample_df ]} : gmap nat DataFrame) !! l = Some frame ->
                     s' !! l = Some frame).
Proof.
  assert (H0 : ({[ 0%nat := sample_df ]} : gmap nat DataFrame) !! 0%nat = Some sample_df)
    by apply lookup_singleton_eq.
  split; [exact H0|].
  exact (filtering_leaves_dataset_untouched _ 0%nat sample_df sample_criteria H0).
Defined.

(** ** The top-10 ranking *)

Section Ranking.
Context {A : Type} (key : A -> Z).

Lemma insert_desc_filter (v : Z) (x : A) (l : list A) :
  List.filter (has key v) (insert_desc key x l) = List.filter (has key v) (x :: l).
Proof.
  induction l as [|y l IH]; [reflexivity|].
  simpl insert_desc. destruct (Z.ltb_spec (key x) (key y)) as [Hlt|Hge];
    [|reflexivity].
  simpl. simpl in IH. rewrite IH. unfold has.
  destruct (Z.eqb_spec (key x) v), (Z.eqb_spec (key y) v); try reflexivity.
  lia.
Qed.

Lemma sort_values_desc_filter (v : Z) (frame : list A) :
  List.filter (has key v) (sort_values_desc key frame) = List.filter (has key v) frame.
Proof.
  induction frame as [|x frame IH]; [reflexivity|].
  simpl sort_values_desc. fold (sort_values_desc key frame).
  rewrite insert_desc_filter. simpl. rewrite IH. reflexivity.
Qed.

Lemma insert_desc_In (x y : A) (l : list A) :
  In y (insert_desc key x l) -> y = x \/ In y l.
Proof.
  induction l as [|z l IH]; simpl.
  - intros [<-|[]]. left. reflexivity.
  - destruct (key x <? key z)%Z; simpl; intuition.
Qed.

Lemma insert_desc_sorted (x : A) (l : list A) :
  StronglySorted (desc key) l -> StronglySorted (desc key) (insert_desc key x l).
Proof.
  induction 1 as [|y l Hl IH Hy]; simpl.
  - constructor; constructor.
  - destruct (Z.ltb_spec (key x) (key y)) as [Hlt|Hge].
    + constructor; [exact IH|].
      apply List.Forall_forall. intros z Hz.
      apply insert_desc_In in Hz. destruct Hz as [->|Hz].
      * unfold desc. lia.
      * rewrite List.Forall_forall in Hy. apply Hy, Hz.
    + constructor; [constructor; assumption|].
      constructor; [exact Hge|].
      eapply List.Forall_impl; [|exact Hy].
      intros z Hz. unfold desc in *. lia.
Qed.

Lemma sort_values_desc_sorted (frame : list A) :
  StronglySorted (desc key) (sort_values_desc key frame).
Proof.
  induction frame as [|x frame IH]; simpl; [constructor|].
  apply insert_desc_sorted, IH.
Qed.

Lemma insert_desc_length (x : A) (l : list A) :
  length (insert_desc key x l) = S (length l).
Proof.
  induction l as [|y l IH]; simpl; [reflexivity|].
  destruct (key x <? key y)%Z; simpl; [rewrite IH|]; reflexivity.
Qed.

Lemma sort_values_desc_length (frame : list A) :
  length (sort_values_desc key frame) = length frame.
Proof.
  induction frame as [|x frame IH]; simpl; [reflexivity|].
  rewrite insert_desc_length, IH. reflexivity.
Qed.

Lemma sort_values_desc_stably_sorted (frame : list A) :
  stably_sorted_desc key frame (sort_values_desc key frame).
Proof.
  split; [apply sort_values_desc_sorted | intros v; apply sort_values_desc_filter].
Qed.

Lemma has_self (r : A) : has key (key r) r = true.
Proof. apply Z.eqb_refl. Qed.

Lemma head_is_max (b : A) (s s' : list A) (a : A) :
  List.Forall (desc key a) s ->
  List.filter (has key (key b)) (a :: s) = List.filter (has key (key b)) (b :: s') ->
  (key b <= key a)%Z.
Proof.
  intros Ha H. cbn [List.filter] in H. rewrite has_self in H.
  destruct (has key (key b) a) eqn:E.
  - apply Z.eqb_eq in E. lia.
  - assert (Hin : In b (List.filter (has key (key b)) s))
      by (rewrite H; left; reflexivity).
    apply filter_In in Hin. destruct Hin as [Hin _].
    rewrite List.Forall_forall in Ha. apply Ha, Hin.
Qed.

(** Two descending lists with the same rows per key value, in the same
    order, are the same list. *)
Lemma sorted_by_groups_unique (s s' : list A) :
  StronglySorted (desc key) s -> StronglySorted (desc key) s' ->
  (forall v, List.filter (has key v) s = List.filter (has key v) s') ->
  s = s'.
Proof.
  intros Hs. revert s'.
  induction Hs as [|a s Hs IH Ha]; intros s' Hs' Hg.
  - destruct s' as [|b s']; [reflexivity|].
    specialize (Hg (key b)). cbn [List.filter] in Hg.
    rewrite has_self in Hg. discriminate.
  - destruct Hs' as [|b s' Hs' Hb].
    + specialize (Hg (key a)). cbn [List.filter] in Hg.
      rewrite has_self in Hg. discriminate.
    + assert (Hab : (key b <= key a)%Z)
        by (eapply head_is_max; [exact Ha | apply Hg]).
      assert (Hba : (key a <= key b)%Z)
        by (eapply head_is_max; [exact Hb | symmetry; apply Hg]).
      assert (Hk : key a = key b) by lia.
      pose proof (Hg (key a)) as H. cbn [List.filter] in H.
      rewrite has_self in H. rewrite Hk, has_self in H.
      injection H as <- Ht.
      f_equal. apply IH; [exact Hs'|].
      intros v. specialize (Hg v). cbn [List.filter] in Hg.
      destruct (has key v a); [injection Hg as Hg|]; exact Hg.
Qed.

Lemma stably_sorted_desc_unique (frame s : list A) :
  stably_sorted_desc key frame s -> s = sort_values_desc key frame.
Proof.
  intros [Hs Hg].
  apply sorted_by_groups_unique;
    [exact Hs | apply sort_values_desc_sorted |].
  intros v. etransitivity; [apply Hg|]. symmetry. apply sort_values_desc_filter.
Qed.
End Ranking.

Lemma select_columns_id (r : MovieRecord) : select_columns r = r.
Proof. destruct r. reflexivity. Qed.

Lemma top_movies_nlargest (filtered_df : DataFrame) :
  top_movies filtered_df = nlargest Votes 10 filtered_df.
Proof.
  unfold top_movies.
  rewrite (map_ext _ id select_columns_id). apply map_id.
Qed.

(** C4. The top-10 ranking is the subset sorted by Votes in descending
    order, records with equal Votes keeping their relative order, cut to
    its first 10 records; with 10 records or fewer it is the whole subset so
    sorted.  The stable descending arrangement exists and is unique. *)
Theorem top_movies_is_stable_top10 (filtered_df : DataFrame) :
  exists s,
    stably_sorted_desc Votes filtered_df s /\
    (forall s', stably_sorted_desc Votes filtered_df s' -> s' = s) /\
    top_movies filtered_df = take 10 s /\
    length (top_movies filtered_df) = Nat.min 10 (length filtered_df) /\
    ((length filtered_df <= 10)%nat -> top_movies filtered_df = s).
Proof.
  exists (sort_values_desc Votes filtered_df).
  rewrite top_movies_nlargest. unfold nlargest, head.
  split; [apply sort_values_desc_stably_sorted|].
  split; [apply stably_sorted_desc_unique|].
  split; [reflexivity|].
  split.
  - rewrite length_take, sort_values_desc_length. reflexivity.
  - intros Hlen. apply take_ge. rewrite sort_values_desc_length. exact Hlen.
Qed.

(** ** Aggregates *)



(** *** Numerals: what is printed reads back as the number *)











(** *** The metric cards *)



(** ** The specification's examples *)

Example sample_result : apply_filters sample_df sample_criteria = [movie_A].
Proof. vm_compute. reflexivity. Qed.

Example sample_formats :
  format_fixed 2 (Finite (15 # 2)) = "7.50" /\
  format_fixed 2 (Finite 2) +:+ " hrs" = "2.00 hrs" /\
  format_fixed 0 (Finite 5000) = "5000" /\
  format_fixed 2 (Finite (565 # 1000)) = "0.56" /\
  format_fixed 2 (Finite (-(1 # 1000))) = "-0.00" /\
  format_fixed 3 (Finite (1001 # 1000)) = "1.001" /\
  format_fixed 2 NotANumber = "nan".
Proof. vm_compute. repeat split. Qed.

Example sample_min_votes :
  apply_filters sample_df (with_min_votes criteria_any 1000) = [movie_A].
Proof. vm_compute. reflexivity. Qed.

Example sample_top_movies : top_movies sample_df = [movie_A; movie_B].
Proof. vm_compute. reflexivity. Qed.

Example sample_no_matches `{Reductions} :
  display_results (apply_filters sample_df (with_min_votes criteria_any 100000)) []
  = [ Subheader "Filtered Movies (0 found)"; Warning no_matches ].
Proof. reflexivity. Qed.

Example sample_long_at_rest :
  slider_at_rest (duration_options sample_df Long) = (Fin 2, Fin 3) /\
  apply_filters sample_df
    (resolve sample_df (with_duration_option sample_df (untouched sample_df) Long))
  = [movie_A].
Proof. vm_compute. split; reflexivity. Qed.

(** * Further properties of the script *)

(** ** The genre options of the multiselect (line 23) *)

Lemma unique_NoDup (s : list string) : NoDup (unique s).
Proof.
  induction s as [|x s IH]; simpl; [apply NoDup_nil_2|].
  apply NoDup_cons_2.
  - intros Hin. apply elem_of_filter in Hin.
    destruct Hin as [_ Hne]. rewrite String.eqb_refl in Hne. discriminate.
  - eapply sublist_NoDup; [exact IH | apply filter_sublist].
Qed.

Lemma insert_sorted_NoDup (x : string) (l : list string) :
  x ∉ l -> NoDup l -> NoDup (insert_sorted x l).
Proof.
  induction l as [|y l IH]; simpl; intros Hx Hl.
  - apply NoDup_singleton.
  - destruct (String.leb x y); [apply NoDup_cons_2; assumption|].
    apply not_elem_of_cons in Hx. destruct Hx as [Hxy Hx].
    apply NoDup_cons in Hl. destruct Hl as [Hy Hl].
    apply NoDup_cons_2; [|apply IH; assumption].
    rewrite elem_of_insert_sorted. intros [->|Hin]; [congruence | contradiction].
Qed.

Lemma sorted_NoDup (l : list string) : NoDup l -> NoDup (sorted l).
Proof.
  unfold sorted. induction l as [|x l IH]; simpl; intros Hl; [apply NoDup_nil_2|].
  apply NoDup_cons in Hl. destruct Hl as [Hx Hl].
  apply insert_sorted_NoDup; [|apply IH, Hl].
  fold (sorted l). rewrite elem_of_sorted. exact Hx.
Qed.

Lemma insert_sorted_Sorted (x : string) (l : list string) :
  Sorted (fun a b => String.leb a b = true) l ->
  Sorted (fun a b => String.leb a b = true) (insert_sorted x l).
Proof.
  induction 1 as [|y l Hl IH Hy]; simpl.
  - constructor; constructor.
  - destruct (String.leb x y) eqn:E.
    + constructor; [constructor; assumption|]. constructor. exact E.
    + constructor; [exact IH|].
      assert (Hyx : String.leb y x = true)
        by (destruct (String.leb_total x y) as [H|H]; [congruence | exact H]).
      destruct Hy as [|z l Hyz]; simpl.
      * constructor. exact Hyx.
      * destruct (String.leb x z); constructor; assumption.
Qed.

(** X1. The genre options offered by the multiselect are the genres that
    occur in the dataset, each once, in ascending order. *)
Theorem genres_sorted_distinct (df : DataFrame) :
  NoDup (genres df) /\
  Sorted (fun a b => String.leb a b = true) (genres df) /\
  (forall g, g ∈ genres df <-> exists r, r ∈ df /\ Genre r = g).
Proof.
  unfold genres. split; [apply sorted_NoDup, unique_NoDup|]. split.
  - unfold sorted. induction (unique (map Genre df)) as [|x l IH]; simpl;
      [constructor | apply insert_sorted_Sorted, IH].
  - intros g. rewrite elem_of_sorted, elem_of_unique, list_elem_of_In, in_map_iff.
    split; intros (r & H1 & H2).
    + exists r. split; [apply list_elem_of_In, H2 | exact H1].
    + exists r. split; [exact H2 | apply list_elem_of_In, H1].
Qed.

(** ** The largest duration (lines 34, 37, 53) *)

Lemma series_max_NaN (s : list float) :
  series_max s = NaN <-> (forall v, v ∈ s -> v = NaN).
Proof.
  induction s as [|v s IH]; simpl.
  - split; [intros _ v Hv; apply elem_of_nil in Hv; destruct Hv | reflexivity].
  - split.
    + intros H v' Hv'. apply elem_of_cons in Hv'.
      destruct v as [x|], (series_max s) as [m|] eqn:E; simpl in H;
        try discriminate; try (destruct (Qle_bool x m); discriminate).
      destruct Hv' as [->|Hv']; [reflexivity | apply IH; [reflexivity | exact Hv']].
    + intros H.
      rewrite (H v) by apply list_elem_of_here. simpl.
      apply IH. intros v' Hv'. apply H, list_elem_of_further, Hv'.
Qed.

Lemma series_max_elem (s : list float) (m : Q) :
  series_max s = Fin m -> Fin m ∈ s.
Proof.
  revert m. induction s as [|v s IH]; simpl; intros m H; [discriminate|].
  destruct v as [x|], (series_max s) as [m'|] eqn:E; simpl in H.
  - destruct (Qle_bool x m'); injection H as <-;
      [apply list_elem_of_further, IH; reflexivity | apply list_elem_of_here].
  - injection H as <-. apply list_elem_of_here.
  - injection H as <-. apply list_elem_of_further, IH. reflexivity.
  - discriminate.
Qed.

(** X2. The largest duration, which bounds the slider and the "All
    Durations" and "Long" ranges, is NaN exactly when the column has no
    finite cell; otherwise it is one of the column's cells and no finite
    cell exceeds it. *)
Theorem series_max_is_largest_cell (s : list float) :
  (series_max s = NaN <-> (forall v, v ∈ s -> v = NaN)) /\
  (forall m, series_max s = Fin m ->
             Fin m ∈ s /\ forall q, Fin q ∈ s -> (q <= m)%Q).
Proof.
  split; [apply series_max_NaN|].
  intros m Hm. split; [apply series_max_elem, Hm|].
  intros q Hq. pose proof (series_max_ge s q Hq) as H.
  rewrite Hm in H. exact H.
Qed.

(** ** The sidebar at rest and the predefined ranges (lines 24-127) *)

(** Expose the fields of the resolved criteria without unfolding the
    resolution functions. *)
Ltac open_resolve :=
  cbn [resolve untouched with_duration_option slider_criteria
       selected_genres min_duration max_duration min_rating min_votes
       w_selected_genres w_selected_duration w_custom_duration
       w_selected_rating w_custom_rating w_selected_votes w_custom_votes].

Lemma elem_of_Duration (df : DataFrame) (r : MovieRecord) (q : Q) :
  r ∈ df -> Duration r = Fin q -> Fle (Fin q) (series_max (map Duration df)).
Proof.
  intros Hin Hq. apply series_max_ge. rewrite <- Hq.
  apply list_elem_of_In, in_map, list_elem_of_In, Hin.
Qed.

Lemma Fle_max_duration (df : DataFrame) (r : MovieRecord) (lo : float) :
  r ∈ df -> Fle lo (Duration r) -> Fle (Duration r) (series_max (map Duration df)).
Proof.
  intros Hin Hlo. destruct (Duration r) as [q|] eqn:E.
  - eapply elem_of_Duration; eassumption.
  - destruct lo; destruct Hlo.
Qed.

Lemma Qle_bool_false (a b : Q) : Qle_bool a b = false -> (b < a)%Q.
Proof.
  intros E. apply Qnot_le_lt. intros Hle.
  apply Qle_bool_iff in Hle. congruence.
Qed.

Lemma resolve_duration_at_rest (p : float * float) :
  resolve_duration p (slider_at_rest p) = slider_at_rest p.
Proof.
  destruct p as [lo hi]. unfold slider_at_rest.
  destruct (float_gt lo hi) eqn:E; [|apply resolve_duration_same].
  destruct lo as [x|], hi as [y|]; try discriminate E.
  cbn [float_gt] in E. apply negb_true_iff, Qle_bool_false in E.
  cbn [resolve_duration float_ne].
  destruct (Qeq_bool y x) eqn:Eq; [|reflexivity].
  apply Qeq_bool_iff in Eq. lra.
Qed.

(** Destruct the comparisons of the goal and the context and turn them into
    propositions. *)
Ltac split_comparisons :=
  repeat match goal with
  | H : context [Qle_bool ?a ?b] |- _ =>
      let E := fresh "E" in
      destruct (Qle_bool a b) eqn:E;
      [apply Qle_bool_iff in E | apply Qle_bool_false in E]
  | |- context [Qle_bool ?a ?b] =>
      let E := fresh "E" in
      destruct (Qle_bool a b) eqn:E;
      [apply Qle_bool_iff in E | apply Qle_bool_false in E]
  end.

(** X3. With nothing touched in the sidebar, and [m] the largest Duration
    of the dataset: when [m] is not negative the result is the dataset
    without the rows that have a missing or negative Duration, a missing or
    negative Rating, or negative Votes; when [m] is negative the slider
    returns its reversed default (0, m) as (m, 0), and the rows kept are
    those with Duration [m], a Rating that is not missing or negative, and
    Votes that are not negative. *)
Theorem untouched_sidebar_keeps_valid_rows (df : DataFrame) (r : MovieRecord) (m : Q) :
  series_max (map Duration df) = Fin m ->
  (r ∈ apply_filters df (resolve df (untouched df)) <->
   r ∈ df /\ Fle (Fin 0) (Rating r) /\ (0 <= Votes r)%Z /\
   ((0 <= m)%Q -> Fle (Fin 0) (Duration r)) /\
   ((m < 0)%Q -> is_exactly (Duration r) m)).
Proof.
  intros Hmax.
  rewrite elem_of_apply_filters. unfold satisfies. open_resolve.
  rewrite resolve_duration_at_rest.
  change (resolve_rating (rating_options AnyRating) (rating_options AnyRating))
    with (Fin 0).
  change (resolve_votes (vote_options AnyVotes) (vote_options AnyVotes)) with 0%Z.
  cbn [duration_options]. rewrite Hmax.
  split.
  - intros (Hin & _ & Hlo & Hhi & Hr & Hv).
    split; [exact Hin|]. split; [exact Hr|]. split; [exact Hv|].
    destruct (Duration r) as [q|] eqn:E;
      [|destruct (fst (slider_at_rest (Fin 0, Fin m))); destruct Hlo].
    pose proof (elem_of_Duration df r q Hin E) as Hq. rewrite Hmax in Hq.
    unfold slider_at_rest, float_gt in Hlo, Hhi. cbn [Fle is_exactly] in *.
    split_comparisons; cbn [negb fst snd Fle] in *; split; intros; lra.
  - intros (Hin & Hr & Hv & Hpos & Hneg).
    split; [exact Hin|]. split; [left; reflexivity|].
    unfold slider_at_rest, float_gt.
    destruct (Qlt_le_dec m 0) as [Hm|Hm].
    + specialize (Hneg Hm). destruct (Duration r) as [q|]; [|destruct Hneg].
      cbn [is_exactly] in Hneg.
      split_comparisons; cbn [negb fst snd Fle]; repeat split; try assumption; lra.
    + specialize (Hpos Hm).
      pose proof (Fle_max_duration df r (Fin 0) Hin Hpos) as Hhi. rewrite Hmax in Hhi.
      destruct (Duration r) as [q|]; [|destruct Hpos].
      cbn [Fle] in Hpos, Hhi.
      split_comparisons; cbn [negb fst snd Fle]; repeat split; try assumption; lra.
Qed.

Lemma untouched_sidebar_keeps_valid_rows_witness :
  series_max (map Duration sample_df) = Fin 2 /\
  (movie_B ∈ apply_filters sample_df (resolve sample_df (untouched sample_df)) <->
   movie_B ∈ sample_df /\ Fle (Fin 0) (Rating movie_B) /\ (0 <= Votes movie_B)%Z /\
   ((0 <= 2)%Q -> Fle (Fin 0) (Duration movie_B)) /\
   ((2 < 0)%Q -> is_exactly (Duration movie_B) 2)).
Proof.
  assert (H : series_max (map Duration sample_df) = Fin 2) by reflexivity.
  split; [exact H|].
  exact (untouched_sidebar_keeps_valid_rows sample_df movie_B 2 H).
Defined.

(** X4. The three predefined ranges leave no gap: every row of the dataset
    with a non-negative Duration lies within the bounds of "Short",
    "Medium" or "Long". *)
Theorem predefined_ranges_cover (df : DataFrame) (r : MovieRecord) :
  r ∈ df ->
  Fle (Fin 0) (Duration r) ->
  exists o, (o = Short \/ o = Medium \/ o = Long) /\
            Fle (fst (duration_options df o)) (Duration r) /\
            Fle (Duration r) (snd (duration_options df o)).
Proof.
  intros Hin H0.
  destruct (Duration r) as [q|] eqn:E; [|destruct H0]. simpl in H0.
  destruct (Qlt_le_dec 2 q) as [H2|H2].
  - destruct (Qlt_le_dec 3 q) as [H3|H3].
    + exists Long. split; [tauto|]. simpl. split; [lra|].
      eapply elem_of_Duration; eassumption.
    + exists Medium. split; [tauto|]. simpl. split; lra.
  - exists Short. split; [tauto|]. simpl. split; lra.
Qed.

Lemma predefined_ranges_cover_witness :
  movie_B ∈ sample_df /\ Fle (Fin 0) (Duration movie_B) /\
  exists o, (o = Short \/ o = Medium \/ o = Long) /\
            Fle (fst (duration_options sample_df o)) (Duration movie_B) /\
            Fle (Duration movie_B) (snd (duration_options sample_df o)).
Proof.
  assert (Hin : movie_B ∈ sample_df) by (apply list_elem_of_further, list_elem_of_here).
  assert (H0 : Fle (Fin 0) (Duration movie_B)) by (vm_compute; discriminate).
  split; [exact Hin|]. split; [exact H0|].
  exact (predefined_ranges_cover sample_df movie_B Hin H0).
Defined.

(** X5. With the duration slider at rest, "All Durations" shows every row
    that any other duration option shows, the other widgets being the
    same. *)
Theorem all_durations_shows_most (df : DataFrame) (w : Widgets) (o : DurationOption)
        (r : MovieRecord) :
  r ∈ apply_filters df (resolve df (with_duration_option df w o)) ->
  r ∈ apply_filters df (resolve df (with_duration_option df w AllDurations)).
Proof.
  rewrite !elem_of_apply_filters. unfold satisfies. open_resolve.
  rewrite !resolve_duration_at_rest.
  intros (Hin & Hg & Hlo & Hhi & Hr & Hv).
  split; [exact Hin|]. split; [exact Hg|].
  enough (Fle (fst (slider_at_rest (duration_options df AllDurations))) (Duration r) /\
          Fle (Duration r) (snd (slider_at_rest (duration_options df AllDurations))))
    by tauto.
  destruct (Duration r) as [q|] eqn:E;
    [|destruct (fst (slider_at_rest (duration_options df o))); destruct Hlo].
  pose proof (elem_of_Duration df r q Hin E) as Hq.
  destruct o; cbn [duration_options] in *;
    (destruct (series_max (map Duration df)) as [m|]; [|destruct Hq]);
    unfold slider_at_rest, float_gt in *;
    split_comparisons; cbn [negb fst snd Fle] in *; split; lra.
Qed.

Lemma all_durations_shows_most_witness :
  movie_A ∈ apply_filters sample_df
              (resolve sample_df (with_duration_option sample_df (untouched sample_df) Medium)) /\
  movie_A ∈ apply_filters sample_df
              (resolve sample_df
                 (with_duration_option sample_df (untouched sample_df) AllDurations)).
Proof.
  assert (H : movie_A ∈ apply_filters sample_df
                (resolve sample_df
                   (with_duration_option sample_df (untouched sample_df) Medium)))
    by (vm_compute; apply list_elem_of_here).
  split; [exact H|].
  exact (all_durations_shows_most sample_df (untouched sample_df) Medium movie_A H).
Defined.

(** X13. When no movie reaches 3 hours, "Long (> 3 hrs)" with the slider
    at rest does not give an empty result.  The slider returns its reversed
    default (3.0, m), [m] the largest Duration, as (m, 3.0); this differs
    from the predefined pair, so it replaces it (lines 59-61), and the
    result holds the rows whose Duration is [m] and that pass the other
    three filters. *)
Theorem long_shows_longest_below_three (df : DataFrame) (w : Widgets) (r : MovieRecord)
        (m : Q) :
  series_max (map Duration df) = Fin m ->
  (m < 3)%Q ->
  (r ∈ apply_filters df (resolve df (with_duration_option df w Long)) <->
   r ∈ df /\ is_exactly (Duration r) m /\
   (selected_genres (resolve df w) = [] \/ Genre r ∈ selected_genres (resolve df w)) /\
   Fle (min_rating (resolve df w)) (Rating r) /\
   (min_votes (resolve df w) <= Votes r)%Z).
Proof.
  intros Hmax Hm.
  rewrite elem_of_apply_filters. unfold satisfies. open_resolve.
  rewrite resolve_duration_at_rest.
  cbn [duration_options]. rewrite Hmax.
  assert (Hrest : slider_at_rest (Fin 3, Fin m) = (Fin m, Fin 3)).
  { unfold slider_at_rest, float_gt.
    split_comparisons; [lra | reflexivity]. }
  rewrite Hrest. cbn [fst snd].
  split.
  - intros (Hin & Hg & Hlo & Hhi & Hr & Hv).
    split; [exact Hin|]. split; [|tauto].
    destruct (Duration r) as [q|] eqn:E; [|destruct Hlo].
    pose proof (elem_of_Duration df r q Hin E) as Hq. rewrite Hmax in Hq.
    cbn [Fle is_exactly] in *. lra.
  - intros (Hin & Hd & Hg & Hr & Hv).
    split; [exact Hin|]. split; [exact Hg|].
    destruct (Duration r) as [q|]; [|destruct Hd].
    cbn [Fle is_exactly] in *. repeat split; try assumption; lra.
Qed.

Lemma long_shows_longest_below_three_witness :
  series_max (map Duration sample_df) = Fin 2 /\ (2 < 3)%Q /\
  (movie_A ∈ apply_filters sample_df
               (resolve sample_df (with_duration_option sample_df (untouched sample_df) Long)) <->
   movie_A ∈ sample_df /\ is_exactly (Duration movie_A) 2 /\
   (selected_genres (resolve sample_df (untouched sample_df)) = [] \/
    Genre movie_A ∈ selected_genres (resolve sample_df (untouched sample_df))) /\
   Fle (min_rating (resolve sample_df (untouched sample_df))) (Rating movie_A) /\
   (min_votes (resolve sample_df (untouched sample_df)) <= Votes movie_A)%Z).
Proof.
  assert (H1 : series_max (map Duration sample_df) = Fin 2) by reflexivity.
  assert (H2 : (2 < 3)%Q) by reflexivity.
  split; [exact H1|]. split; [exact H2|].
  exact (long_shows_longest_below_three sample_df (untouched sample_df) movie_A 2 H1 H2).
Defined.

(** ** The radios act only through the sliders (lines 59-61, 92-94, 125-127) *)

Lemma Qle_bool_compat (a a' b b' : Q) :
  (a == a')%Q -> (b == b')%Q -> Qle_bool a b = Qle_bool a' b'.
Proof.
  intros Ha Hb.
  destruct (Qle_bool a b) eqn:E1, (Qle_bool a' b') eqn:E2; try reflexivity.
  - apply Qle_bool_iff in E1. rewrite Ha, Hb in E1.
    apply Qle_bool_iff in E1. congruence.
  - apply Qle_bool_iff in E2. rewrite <- Ha, <- Hb in E2.
    apply Qle_bool_iff in E2. congruence.
Qed.

Lemma float_ne_false (a b : float) :
  float_ne a b = false ->
  exists x y, a = Fin x /\ b = Fin y /\ (x == y)%Q.
Proof.
  destruct a as [x|], b as [y|]; simpl; try discriminate.
  intros H. apply negb_false_iff, Qeq_bool_iff in H. eauto.
Qed.

Lemma float_ge_same (v a b : float) :
  float_ne a b = false -> float_ge v b = float_ge v a.
Proof.
  intros H. destruct (float_ne_false a b H) as (x & y & -> & -> & Hxy).
  destruct v as [q|]; simpl; [|reflexivity].
  apply Qle_bool_compat; [symmetry; exact Hxy | reflexivity].
Qed.

Lemma float_le_same (v a b : float) :
  float_ne a b = false -> float_le v b = float_le v a.
Proof.
  intros H. destruct (float_ne_false a b H) as (x & y & -> & -> & Hxy).
  destruct v as [q|]; simpl; [|reflexivity].
  apply Qle_bool_compat; [reflexivity | symmetry; exact Hxy].
Qed.

(** X6. The filter result is determined by the multiselect and the three
    sliders: whatever the radios select, the resolved bounds compare like
    the slider values, so two runs with the same slider values and genre
    selection give the same result. *)
Theorem result_determined_by_sliders (df : DataFrame) (w : Widgets) :
  apply_filters df (resolve df w) = apply_filters df (slider_criteria w).
Proof.
  rewrite !apply_filters_rows. apply filter_ext_in. intros r _.
  unfold passes. open_resolve.
  f_equal. f_equal; [f_equal; [f_equal|]|].
  - unfold resolve_duration.
    destruct (duration_options df (w_selected_duration w)) as [lo hi].
    destruct (w_custom_duration w) as [clo chi]; simpl.
    destruct (float_ne clo lo) eqn:E1; simpl; [reflexivity|].
    destruct (float_ne chi hi) eqn:E2; simpl; [reflexivity|].
    apply float_ge_same, E1.
  - unfold resolve_duration.
    destruct (duration_options df (w_selected_duration w)) as [lo hi].
    destruct (w_custom_duration w) as [clo chi]; simpl.
    destruct (float_ne clo lo) eqn:E1; simpl; [reflexivity|].
    destruct (float_ne chi hi) eqn:E2; simpl; [reflexivity|].
    apply float_le_same, E2.
  - unfold resolve_rating.
    destruct (float_ne (w_custom_rating w) (rating_options (w_selected_rating w))) eqn:E;
      [reflexivity | apply float_ge_same, E].
  - unfold resolve_votes.
    destruct (Z.eqb_spec (w_custom_votes w) (vote_options (w_selected_votes w))) as [->|];
      reflexivity.
Qed.

(** ** How filters compose (lines 130-140) *)

Lemma filter_sublist_impl {A : Type} (p q : A -> bool) (l : list A) :
  (forall r, r ∈ l -> p r = true -> q r = true) ->
  List.filter p l `sublist_of` List.filter q l.
Proof.
  induction l as [|r l IH]; intros H; simpl; [constructor|].
  assert (IH' : List.filter p l `sublist_of` List.filter q l)
    by (apply IH; intros r' Hr'; apply H, list_elem_of_further, Hr').
  destruct (p r) eqn:Ep.
  - rewrite (H r (list_elem_of_here _ _) Ep). apply sublist_skip, IH'.
  - destruct (q r); [apply sublist_cons, IH' | exact IH'].
Qed.

Lemma length_filter_split {A : Type} (p p1 p2 : A -> bool) (l : list A) :
  (forall r, r ∈ l -> p r = p1 r || p2 r) ->
  (forall r, r ∈ l -> p1 r && p2 r = false) ->
  length (List.filter p l)
  = (length (List.filter p1 l) + length (List.filter p2 l))%nat.
Proof.
  induction l as [|r l IH]; intros Hor Hdis; simpl; [reflexivity|].
  rewrite (Hor r) by apply list_elem_of_here.
  pose proof (Hdis r (list_elem_of_here _ _)) as Hd.
  assert (IH' : length (List.filter p l)
                = (length (List.filter p1 l) + length (List.filter p2 l))%nat).
  { apply IH; intros r' Hr'; [apply Hor | apply Hdis]; apply list_elem_of_further, Hr'. }
  destruct (p1 r), (p2 r); simpl in *; try discriminate; rewrite IH'; lia.
Qed.

(** X7. Filtering with one set of criteria and then with another gives the
    same rows, in the same order, whichever goes first: the rows of the
    dataset that satisfy both. *)
Theorem filters_commute (df : DataFrame) (c1 c2 : Criteria) :
  apply_filters (apply_filters df c1) c2 = apply_filters (apply_filters df c2) c1 /\
  (forall r, r ∈ apply_filters (apply_filters df c1) c2 <->
             r ∈ df /\ satisfies c1 r /\ satisfies c2 r).
Proof.
  split.
  - rewrite !apply_filters_rows, !filter_filter_andb.
    apply filter_ext_in. intros r _. apply andb_comm.
  - intros r. rewrite !elem_of_apply_filters. tauto.
Qed.

(** X8. Widening one bound (lowering min_rating, min_votes or min_duration,
    raising max_duration, or enlarging a non-empty genre selection) keeps
    the rows of the narrower result in their order inside the wider one, so
    the number of movies found does not go down. *)
Theorem widening_gives_superlist (df : DataFrame) (c c' : Criteria) :
  widens superset_of_nonempty c c' ->
  apply_filters df c `sublist_of` apply_filters df c' /\
  (length (apply_filters df c) <= length (apply_filters df c'))%nat.
Proof.
  intros Hw.
  assert (Hsub : apply_filters df c `sublist_of` apply_filters df c').
  { rewrite !apply_filters_rows. apply filter_sublist_impl.
    intros r _. rewrite !passes_satisfies. apply satisfies_widens, Hw. }
  split; [exact Hsub | apply sublist_length, Hsub].
Qed.

Lemma widening_gives_superlist_witness :
  widens superset_of_nonempty sample_criteria (with_min_rating sample_criteria (Fin 6)) /\
  apply_filters sample_df sample_criteria
    `sublist_of` apply_filters sample_df (with_min_rating sample_criteria (Fin 6)) /\
  (length (apply_filters sample_df sample_criteria)
   <= length (apply_filters sample_df (with_min_rating sample_criteria (Fin 6))))%nat.
Proof.
  assert (Hw : widens superset_of_nonempty sample_criteria
                 (with_min_rating sample_criteria (Fin 6)))
    by (apply widen_min_rating; vm_compute; discriminate).
  split; [exact Hw|].
  exact (widening_gives_superlist sample_df _ _ Hw).
Defined.

(** X9. Selecting genres never adds rows: with the other criteria fixed,
    the result for any genre selection is a subsequence of the result for
    the empty selection. *)
Theorem genre_selection_narrows (df : DataFrame) (c : Criteria) (gs : list string) :
  apply_filters df (with_genres c gs) `sublist_of` apply_filters df (with_genres c []).
Proof.
  rewrite !apply_filters_rows. apply filter_sublist_impl.
  intros r _. unfold passes; simpl.
  rewrite !andb_true_iff. tauto.
Qed.

Lemma passes_with_genres (c : Criteria) (g : string) (gs : list string) (r : MovieRecord) :
  passes (with_genres c (g :: gs)) r
  = bool_decide (Genre r ∈ g :: gs) && passes (with_genres c []) r.
Proof. reflexivity. Qed.

(** X10. The count for a selection of several genres is the sum of the
    counts of its parts: for two non-empty genre selections with no genre in
    common, the number of movies found for both together is the sum of the
    numbers found for each. *)
Theorem genre_counts_add (df : DataFrame) (c : Criteria) (gs1 gs2 : list string) :
  gs1 <> [] -> gs2 <> [] ->
  (forall g, g ∈ gs1 -> g ∉ gs2) ->
  length (apply_filters df (with_genres c (gs1 ++ gs2)))
  = (length (apply_filters df (with_genres c gs1))
     + length (apply_filters df (with_genres c gs2)))%nat.
Proof.
  intros H1 H2 Hdis.
  destruct gs1 as [|g1 gs1]; [congruence|].
  destruct gs2 as [|g2 gs2]; [congruence|].
  rewrite !apply_filters_rows.
  apply length_filter_split; intros r _.
  - change ((g1 :: gs1) ++ g2 :: gs2) with (g1 :: (gs1 ++ g2 :: gs2)).
    rewrite !passes_with_genres, <- andb_orb_distrib_l. f_equal.
    change (g1 :: (gs1 ++ g2 :: gs2)) with ((g1 :: gs1) ++ g2 :: gs2).
    apply eq_true_iff_eq.
    rewrite orb_true_iff, !bool_decide_eq_true, elem_of_app. reflexivity.
  - rewrite !passes_with_genres.
    destruct (bool_decide (Genre r ∈ g1 :: gs1)) eqn:E1; [|reflexivity].
    destruct (bool_decide (Genre r ∈ g2 :: gs2)) eqn:E2;
      [|simpl; apply andb_false_r].
    apply bool_decide_eq_true in E1, E2. destruct (Hdis _ E1 E2).
Qed.

Lemma genre_counts_add_witness :
  ["Drama"] <> [] /\ ["Comedy"] <> [] /\
  (forall g : string, g ∈ ["Drama"] -> g ∉ ["Comedy"]) /\
  length (apply_filters sample_df (with_genres criteria_any (["Drama"] ++ ["Comedy"])))
  = (length (apply_filters sample_df (with_genres criteria_any ["Drama"]))
     + length (apply_filters sample_df (with_genres criteria_any ["Comedy"])))%nat.
Proof.
  assert (H1 : ["Drama"] <> ([] : list string)) by discriminate.
  assert (H2 : ["Comedy"] <> ([] : list string)) by discriminate.
  assert (Hd : forall g : string, g ∈ ["Drama"] -> g ∉ ["Comedy"]).
  { intros g Hg Hg'. apply list_elem_of_singleton in Hg, Hg'. congruence. }
  split; [exact H1|]. split; [exact H2|]. split; [exact Hd|].
  exact (genre_counts_add sample_df criteria_any ["Drama"] ["Comedy"] H1 H2 Hd).
Defined.

(** ** The bar chart (line 201) *)

Lemma insert_desc_Permutation {A : Type} (key : A -> Z) (x : A) (l : list A) :
  insert_desc key x l ≡ₚ x :: l.
Proof.
  induction l as [|y l IH]; simpl; [reflexivity|].
  destruct (key x <? key y)%Z; [|reflexivity].
  rewrite IH. apply Permutation_swap.
Qed.

Lemma sort_values_desc_Permutation {A : Type} (key : A -> Z) (frame : list A) :
  sort_values_desc key frame ≡ₚ frame.
Proof.
  induction frame as [|x frame IH]; simpl; [reflexivity|].
  rewrite insert_desc_Permutation. fold (sort_values_desc key frame).
  rewrite IH. reflexivity.
Qed.

(** X11. The bar chart splits the filtered subset in two: its bars together
    with the rows left out are the subset (same rows, same multiplicity),
    every bar is a row of the dataset that satisfies the criteria, and no
    row left out has more Votes than a bar. *)
Theorem chart_shows_most_voted (df : DataFrame) (c : Criteria) :
  exists rest,
    top_movies (apply_filters df c) ++ rest ≡ₚ apply_filters df c /\
    (forall r, r ∈ top_movies (apply_filters df c) -> r ∈ df /\ satisfies c r) /\
    (forall r r', r ∈ top_movies (apply_filters df c) -> r' ∈ rest ->
                  (Votes r' <= Votes r)%Z).
Proof.
  set (F := apply_filters df c).
  exists (drop 10 (sort_values_desc Votes F)).
  rewrite top_movies_nlargest. unfold nlargest, head.
  assert (HP : take 10 (sort_values_desc Votes F) ++ drop 10 (sort_values_desc Votes F)
               ≡ₚ F)
    by (rewrite take_drop; apply sort_values_desc_Permutation).
  split; [exact HP|]. split.
  - intros r Hr. apply elem_of_apply_filters. fold F.
    rewrite <- HP. apply elem_of_app. left. exact Hr.
  - intros r r' Hr Hr'.
    pose proof (sort_values_desc_sorted Votes F) as Hs.
    rewrite <- (take_drop 10 (sort_values_desc Votes F)) in Hs.
    exact (StronglySorted_app_1_elem_of _ _ _ _ _ Hs Hr Hr').
Qed.

(** ** The average of a single match (line 153) *)

Lemma round_half_even_integer (x : Q) (v : Z) :
  (x == inject_Z v)%Q -> round_half_even x = v.
Proof.
  intros Hx. unfold round_half_even.
  assert (Hf : Qfloor x = v) by (rewrite Hx; apply Qfloor_Z).
  rewrite Hf.
  assert (Hc : Qcompare (x - inject_Z v) (1 # 2) = Lt) by (apply (proj1 (Qlt_alt _ _)); lra).
  rewrite Hc. reflexivity.
Qed.

Lemma format_natural (v : Z) :
  (0 <= v)%Z -> format_fixed 0 (Finite (inject_Z v)) = str_Z v.
Proof.
  intros Hv. cbn [format_fixed].
  assert (Hk : fixed_digits 0 (inject_Z v) = v).
  { unfold fixed_digits. apply round_half_even_integer.
    change (inject_Z (10 ^ Z.of_nat 0)) with 1%Q.
    rewrite Qabs_pos; [ring|].
    change 0%Q with (inject_Z 0). rewrite <- Zle_Qle. exact Hv. }
  rewrite Hk. unfold is_negative, str_Z.
  destruct (Qlt_le_dec (inject_Z v) 0) as [Hneg|_].
  { exfalso. change 0%Q with (inject_Z 0) in Hneg. rewrite <- Zlt_Qlt in Hneg. lia. }
  destruct (Z.ltb_spec v 0) as [Hlt|_]; [lia|].
  unfold fixed_numeral, str_N. change (10 ^ N.of_nat 0)%N with 1%N.
  rewrite N.div_1_r.
  replace (Z.abs_N v) with (Z.to_N v) by lia. reflexivity.
Qed.

(** X12. When exactly one movie matches and its Votes are not negative and
    at most 2^53 (the integers float64 holds exactly), the page shows "Total
    Movies" 1 and, as "Average Votes", that movie's Votes. *)
Theorem single_match_metrics `{Reductions} (df : DataFrame) (c : Criteria)
        (sel : list string) (r : MovieRecord) :
  apply_filters df c = [r] ->
  (0 <= Votes r <= 2 ^ 53)%Z ->
  Metric "Total Movies" "1" ∈ display_results (apply_filters df c) sel /\
  Metric "Average Votes" (str_Z (Votes r)) ∈ display_results (apply_filters df c) sel.
Proof.
  intros -> Hv. unfold display_results, metrics. cbn [length Nat.eqb app map].
  rewrite series_mean_int_single by lia.
  rewrite (format_natural (Votes r)) by lia.
  split.
  - apply list_elem_of_further, list_elem_of_here.
  - do 4 apply list_elem_of_further. apply list_elem_of_here.
Qed.

Lemma single_match_metrics_witness :
  apply_filters sample_df sample_criteria = [movie_A] /\
  (0 <= Votes movie_A <= 2 ^ 53)%Z /\
  Metric "Total Movies" "1"
    ∈ @display_results exact_reductions (apply_filters sample_df sample_criteria) [] /\
  Metric "Average Votes" (str_Z (Votes movie_A))
    ∈ @display_results exact_reductions (apply_filters sample_df sample_criteria) [].
Proof.
  assert (H1 : apply_filters sample_df sample_criteria = [movie_A]) by reflexivity.
  assert (H2 : (0 <= Votes movie_A <= 2 ^ 53)%Z) by (vm_compute; split; discriminate).
  split; [exact H1|]. split; [exact H2|].
  exact (@single_match_metrics exact_reductions sample_df sample_criteria [] movie_A H1 H2).
Defined.
